(** * web3.eth method and property tables (lib/web3/eth.js)

    A shallow embedding of [lib/web3/eth.js]: the five call-selector
    functions, the [methods] array and the [properties] array, together
    with the part of the JavaScript runtime those definitions touch
    (array indexing, [String.prototype.indexOf], the short-circuit [&&],
    strict equality with a number literal). *)

From Stdlib Require Import ZArith Bool Ascii PrimFloat Lia.
From stdpp Require Import base list strings.

Local Open Scope Z_scope.

(** ** JavaScript values *)

#[local] Set Warnings "-register-all".

(** The data values a caller can put into an argument list.  Numbers are
    IEEE 754 doubles, strings are sequences of code units, arrays are
    dense, objects are property lists holding data only (no callable own
    properties). *)
Inductive value : Type :=
| VUndefined
| VNull
| VBoolean (b : bool)
| VNumber (n : float)
| VString (s : string)
| VArray (items : list value)
| VObject (props : list (string * value)).

(** ** Completions: a JavaScript expression returns or throws *)

Inductive error : Type :=
| TypeError (msg : string).

Inductive result (A : Type) : Type :=
| Ok (a : A)
| Throw (e : error).

Arguments Ok {A} a.
Arguments Throw {A} e.

(** Sequencing: a thrown error skips the rest ([x ← r; k] below). *)
#[global] Instance result_ret : MRet result := fun A a => Ok a.

#[global] Instance result_bind : MBind result := fun A B k r =>
  match r with
  | Ok a => k a
  | Throw e => Throw e
  end.

(** [a && b] evaluates [b] only when [a] is truthy. *)
Definition and_then (a : bool) (b : result bool) : result bool :=
  if a then b else mret false.

Notation "a &&& b" := (and_then a b) (at level 40, left associativity).

(** [c ? x : y] *)
Definition cond {A : Type} (c : bool) (x y : A) : A := if c then x else y.

(** ** The runtime operations used by the selectors *)

(** [args[i]] on an array: the element, or [undefined] past the end. *)
Definition at_index (args : list value) (i : nat) : value :=
  default VUndefined (args !! i).

Notation "args .[ i ]" := (at_index args i) (at level 1, left associativity, format "args .[ i ]").

(** Does [search] occur in [s] at position 0?  Code unit by code unit. *)
Fixpoint matches_here (search s : string) : bool :=
  match search, s with
  | EmptyString, _ => true
  | String _ _, EmptyString => false
  | String a search', String b s' =>
      if Ascii.eqb a b then matches_here search' s' else false
  end.

(** [String.prototype.indexOf(search)] from position [k]: the smallest
    position at or after [k] where [search] occurs, or [-1]. *)
Fixpoint indexOf_from (k : Z) (s search : string) : Z :=
  if matches_here search s then k
  else match s with
       | EmptyString => -1
       | String _ s' => indexOf_from (k + 1) s' search
       end.

Definition String_indexOf (s search : string) : Z := indexOf_from 0 s search.

(** [x === s] for a string [s]: only an equal string is strictly equal. *)
Definition strict_equals_string (x : value) (s : string) : bool :=
  match x with
  | VString t => String.eqb t s
  | _ => false
  end.

(** [Array.prototype.indexOf(search)] for a string [search]. *)
Fixpoint Array_indexOf_from (k : Z) (items : list value) (search : string) : Z :=
  match items with
  | [] => -1
  | x :: items' =>
      if strict_equals_string x search then k
      else Array_indexOf_from (k + 1) items' search
  end.

(** The method call [v.indexOf(search)].  Strings and arrays have the
    method; reading a property of [undefined] or [null] throws, and on any
    other value the property is not callable. *)
Definition indexOf (v : value) (search : string) : result Z :=
  match v with
  | VString s => Ok (String_indexOf s search)
  | VArray items => Ok (Array_indexOf_from 0 items search)
  | VUndefined => Throw (TypeError "Cannot read property 'indexOf' of undefined")
  | VNull => Throw (TypeError "Cannot read property 'indexOf' of null")
  | VBoolean _ | VNumber _ | VObject _ =>
      Throw (TypeError "indexOf is not a function")
  end.

(** ** ../utils/utils *)

Module utils.

(** Modelled from the spec: [utils.isString] ([../utils/utils] is not in
    the source tree).  The spec's selector contract tests whether
    argument[0] "is a string value"; the result is used for its
    truthiness only. *)
Definition isString (object : value) : bool :=
  match object with
  | VString _ => true
  | _ => false
  end.

End utils.

(** ** The call selectors *)

Definition blockCall (args : list value) : result string :=
  c ← utils.isString args.[0] &&& (i ← indexOf args.[0] "0x"; mret (i =? 0));
  mret (cond c "eth_getBlockByHash" "eth_getBlockByNumber").

Definition transactionFromBlockCall (args : list value) : result string :=
  c ← utils.isString args.[0] &&& (i ← indexOf args.[0] "0x"; mret (i =? 0));
  mret (cond c "eth_getTransactionByBlockHashAndIndex" "eth_getTransactionByBlockNumberAndIndex").

Definition uncleCall (args : list value) : result string :=
  c ← utils.isString args.[0] &&& (i ← indexOf args.[0] "0x"; mret (i =? 0));
  mret (cond c "eth_getUncleByBlockHashAndIndex" "eth_getUncleByBlockNumberAndIndex").

Definition getBlockTransactionCountCall (args : list value) : result string :=
  c ← utils.isString args.[0] &&& (i ← indexOf args.[0] "0x"; mret (i =? 0));
  mret (cond c "eth_getBlockTransactionCountByHash" "eth_getBlockTransactionCountByNumber").

Definition uncleCountCall (args : list value) : result string :=
  c ← utils.isString args.[0] &&& (i ← indexOf args.[0] "0x"; mret (i =? 0));
  mret (cond c "eth_getUncleCountByBlockHash" "eth_getUncleCountByBlockNumber").

(** ** Formatter functions

    The descriptors hold references to functions of [./formatters] and
    [../utils/utils]; the tables never call them. *)
Inductive formatter : Set :=
| formatters_inputNumberFormatter
| formatters_inputBlockFormatter
| formatters_inputUncleFormatter
| formatters_inputTransactionFormatter
| formatters_inputCallFormatter
| formatters_outputBlockFormatter
| formatters_outputTransactionFormatter
| utils_toHex
| utils_toDecimal.

(** An [inputFormatter]: "can be a formatter function or an array of
    functions, where each item in the array will be used for one
    parameter". *)
Inductive input_formatter : Type :=
| Single (f : formatter)
| PerArgument (fs : list (option formatter)).

(** A [call]: an RPC selector string, or a function of the arguments. *)
Inductive call_field : Type :=
| CallString (selector : string)
| CallFunction (f : list value -> result string).

(** ** ./method *)

Module Method.

(** Modelled from the spec: the [Method] constructor ([./method] is not in
    the source tree).  A MethodDescriptor has the fields name, call,
    paramCount, inputFormatter and outputFormatter; the constructor keeps
    the options it is given, [params] being the declared paramCount.  An
    option that the object literal leaves out is [None]. *)
Record t : Type := new {
  name : string;
  call : call_field;
  params : Z;
  inputFormatter : option input_formatter;
  outputFormatter : option formatter
}.

Definition paramCount (m : t) : Z := params m.

End Method.

(** ** The method descriptors *)

Definition getBalance : Method.t := {|
  Method.name := "getBalance";
  Method.call := CallString "eth_getBalance";
  Method.params := 2;
  Method.inputFormatter := None;
  Method.outputFormatter := Some formatters_inputNumberFormatter
|}.

Definition getStorageAt : Method.t := {|
  Method.name := "getStorageAt";
  Method.call := CallString "eth_getStorageAt";
  Method.params := 3;
  Method.inputFormatter := None;
  Method.outputFormatter := None
|}.

Definition getCode : Method.t := {|
  Method.name := "getCode";
  Method.call := CallString "eth_getCode";
  Method.params := 2;
  Method.inputFormatter := None;
  Method.outputFormatter := None
|}.

Definition getBlock : Method.t := {|
  Method.name := "getBlock";
  Method.call := CallFunction blockCall;
  Method.params := 1;
  Method.outputFormatter := Some formatters_outputBlockFormatter;
  Method.inputFormatter := Some (Single formatters_inputBlockFormatter)
|}.

Definition getUncle : Method.t := {|
  Method.name := "getUncle";
  Method.call := CallFunction uncleCall;
  Method.params := 1;
  Method.outputFormatter := Some formatters_outputBlockFormatter;
  Method.inputFormatter := Some (Single formatters_inputUncleFormatter)
|}.

Definition getCompilers : Method.t := {|
  Method.name := "getCompilers";
  Method.call := CallString "eth_getCompilers";
  Method.params := 0;
  Method.inputFormatter := None;
  Method.outputFormatter := None
|}.

Definition getBlockTransactounCount : Method.t := {|
  Method.name := "getBlockTransactionCount";
  Method.call := CallFunction getBlockTransactionCountCall;
  Method.params := 1;
  Method.outputFormatter := Some utils_toDecimal;
  Method.inputFormatter := Some (Single utils_toHex)
|}.

Definition getBlockUncleCount : Method.t := {|
  Method.name := "getBlockUncleCount";
  Method.call := CallFunction uncleCountCall;
  Method.params := 1;
  Method.outputFormatter := Some utils_toDecimal;
  Method.inputFormatter := Some (Single utils_toHex)
|}.

Definition getTransaction : Method.t := {|
  Method.name := "getTransaction";
  Method.call := CallString "eth_getTransactionByHash";
  Method.params := 1;
  Method.inputFormatter := None;
  Method.outputFormatter := Some formatters_outputTransactionFormatter
|}.

Definition getTransactionFromBlock : Method.t := {|
  Method.name := "getTransactionFromBlock";
  Method.call := CallFunction transactionFromBlockCall;
  Method.params := 2;
  Method.outputFormatter := Some formatters_outputTransactionFormatter;
  Method.inputFormatter := Some (Single utils_toHex)
|}.

Definition getTransactionCount : Method.t := {|
  Method.name := "getTransactionCount";
  Method.call := CallString "eth_getTransactionCount";
  Method.params := 2;
  Method.inputFormatter := None;
  Method.outputFormatter := Some utils_toDecimal
|}.

Definition sendTransaction : Method.t := {|
  Method.name := "sendTransaction";
  Method.call := CallString "eth_sendTransaction";
  Method.params := 1;
  Method.inputFormatter := Some (Single formatters_inputTransactionFormatter);
  Method.outputFormatter := None
|}.

Definition call : Method.t := {|
  Method.name := "call";
  Method.call := CallString "eth_call";
  Method.params := 2;
  Method.inputFormatter := Some (Single formatters_inputCallFormatter);
  Method.outputFormatter := None
|}.

Definition compileSolidity : Method.t := {|
  Method.name := "compile.solidity";
  Method.call := CallString "eth_compileSolidity";
  Method.params := 1;
  Method.inputFormatter := None;
  Method.outputFormatter := None
|}.

Definition compileLLL : Method.t := {|
  Method.name := "compile.lll";
  Method.call := CallString "eth_compileLLL";
  Method.params := 1;
  Method.inputFormatter := Some (Single utils_toHex);
  Method.outputFormatter := None
|}.

Definition compileSerpent : Method.t := {|
  Method.name := "compile.serpent";
  Method.call := CallString "eth_compileSerpent";
  Method.params := 1;
  Method.inputFormatter := Some (Single utils_toHex);
  Method.outputFormatter := None
|}.

Definition flush : Method.t := {|
  Method.name := "flush";
  Method.call := CallString "eth_flush";
  Method.params := 0;
  Method.inputFormatter := None;
  Method.outputFormatter := None
|}.

Definition methods : list Method.t := [
  getBalance;
  getStorageAt;
  getCode;
  getBlock;
  getUncle;
  getCompilers;
  getBlockTransactounCount;
  getBlockUncleCount;
  getTransaction;
  getTransactionFromBlock;
  getTransactionCount;
  call;
  sendTransaction;
  compileSolidity;
  compileLLL;
  compileSerpent;
  flush
].

(** ** The property descriptors *)

Module Property.

(** The shape of the object literals of [properties]: [name] and [getter]
    are given in every literal, the other keys may be left out. *)
Record t : Type := new {
  name : string;
  getter : string;
  setter : option string;
  outputFormatter : option formatter;
  deprecated : option string
}.

End Property.

Definition properties : list Property.t := [
  {| Property.name := "coinbase"; Property.getter := "eth_coinbase";
     Property.setter := None; Property.outputFormatter := None;
     Property.deprecated := None |};
  {| Property.name := "mining"; Property.getter := "eth_mining";
     Property.setter := None; Property.outputFormatter := None;
     Property.deprecated := None |};
  {| Property.name := "gasPrice"; Property.getter := "eth_gasPrice";
     Property.setter := None;
     Property.outputFormatter := Some formatters_inputNumberFormatter;
     Property.deprecated := None |};
  {| Property.name := "accounts"; Property.getter := "eth_accounts";
     Property.setter := None; Property.outputFormatter := None;
     Property.deprecated := None |};
  {| Property.name := "blockNumber"; Property.getter := "eth_blockNumber";
     Property.setter := None; Property.outputFormatter := Some utils_toDecimal;
     Property.deprecated := None |};
  (* deprecated properties *)
  {| Property.name := "listening"; Property.getter := "net_listening";
     Property.setter := Some "eth_setListening"; Property.outputFormatter := None;
     Property.deprecated := Some "net.listening" |};
  {| Property.name := "peerCount"; Property.getter := "net_peerCount";
     Property.setter := None; Property.outputFormatter := None;
     Property.deprecated := Some "net.peerCount" |};
  {| Property.name := "number"; Property.getter := "eth_number";
     Property.setter := None; Property.outputFormatter := None;
     Property.deprecated := Some "eth.blockNumber" |}
].

(** [module.exports] *)
Record exports : Type := {
  exports_methods : list Method.t;
  exports_properties : list Property.t
}.

Definition module_exports : exports := {|
  exports_methods := methods;
  exports_properties := properties
|}.

(** ** The tables as the specification words them

    The method table of §4.2 and the property enumeration of §4.3, row by
    row, in the specification's vocabulary.  These are compared with the
    arrays above. *)

Module Spec.

(** "fixed `sel`" or "selector (hash/number)". *)
Inductive call_shape : Type :=
| fixed (selector : string)
| selector_hash_number.

(** The formatter columns of the table. *)
Inductive formatter_kind : Set :=
| numeric
| hex
| decimal
| block_arg
| uncle_arg
| call_arg
| transaction_arg
| block_result
| transaction_result.

(** A single transform, or an ordered sequence of per-argument ones. *)
Inductive input_shape : Type :=
| single (k : formatter_kind)
| per_argument (ks : list (option formatter_kind)).

Record method_row : Type := row {
  name : string;
  call : call_shape;
  params : Z;
  inputFormatter : option input_shape;
  outputFormatter : option formatter_kind
}.

Definition method_table : list method_row := [
  row "getBalance" (fixed "eth_getBalance") 2 None (Some numeric);
  row "getStorageAt" (fixed "eth_getStorageAt") 3 None None;
  row "getCode" (fixed "eth_getCode") 2 None None;
  row "getBlock" selector_hash_number 1 (Some (single block_arg)) (Some block_result);
  row "getUncle" selector_hash_number 1 (Some (single uncle_arg)) (Some block_result);
  row "getCompilers" (fixed "eth_getCompilers") 0 None None;
  row "getBlockTransactionCount" selector_hash_number 1 (Some (single hex)) (Some decimal);
  row "getBlockUncleCount" selector_hash_number 1 (Some (single hex)) (Some decimal);
  row "getTransaction" (fixed "eth_getTransactionByHash") 1 None (Some transaction_result);
  row "getTransactionFromBlock" selector_hash_number 2 (Some (single hex)) (Some transaction_result);
  row "getTransactionCount" (fixed "eth_getTransactionCount") 2 None (Some decimal);
  row "call" (fixed "eth_call") 2 (Some (single call_arg)) None;
  row "sendTransaction" (fixed "eth_sendTransaction") 1 (Some (single transaction_arg)) None;
  row "compile.solidity" (fixed "eth_compileSolidity") 1 None None;
  row "compile.lll" (fixed "eth_compileLLL") 1 (Some (single hex)) None;
  row "compile.serpent" (fixed "eth_compileSerpent") 1 (Some (single hex)) None;
  row "flush" (fixed "eth_flush") 0 None None
].

(** §4.3: name, whether a setter is declared, the output formatter, and
    the replacement path of a deprecated alias. *)
Record property_row : Type := prop {
  prop_name : string;
  has_setter : bool;
  prop_outputFormatter : option formatter_kind;
  forwards_to : option string
}.

Definition property_table : list property_row := [
  prop "coinbase" false None None;
  prop "mining" false None None;
  prop "gasPrice" false (Some numeric) None;
  prop "accounts" false None None;
  prop "blockNumber" false (Some decimal) None;
  prop "listening" true None (Some "net.listening");
  prop "peerCount" false None (Some "net.peerCount");
  prop "number" false None (Some "eth.blockNumber")
].

End Spec.

(** *** Reading a descriptor in the specification's vocabulary *)

Definition kind_of (f : formatter) : Spec.formatter_kind :=
  match f with
  | formatters_inputNumberFormatter => Spec.numeric
  | formatters_inputBlockFormatter => Spec.block_arg
  | formatters_inputUncleFormatter => Spec.uncle_arg
  | formatters_inputTransactionFormatter => Spec.transaction_arg
  | formatters_inputCallFormatter => Spec.call_arg
  | formatters_outputBlockFormatter => Spec.block_result
  | formatters_outputTransactionFormatter => Spec.transaction_result
  | utils_toHex => Spec.hex
  | utils_toDecimal => Spec.decimal
  end.

Definition call_shape_of (c : call_field) : Spec.call_shape :=
  match c with
  | CallString s => Spec.fixed s
  | CallFunction _ => Spec.selector_hash_number
  end.

Definition input_shape_of (i : input_formatter) : Spec.input_shape :=
  match i with
  | Single f => Spec.single (kind_of f)
  | PerArgument fs => Spec.per_argument (List.map (option_map kind_of) fs)
  end.

Definition method_shape (m : Method.t) : Spec.method_row := {|
  Spec.name := Method.name m;
  Spec.call := call_shape_of (Method.call m);
  Spec.params := Method.paramCount m;
  Spec.inputFormatter := option_map input_shape_of (Method.inputFormatter m);
  Spec.outputFormatter := option_map kind_of (Method.outputFormatter m)
|}.

Definition property_shape (p : Property.t) : Spec.property_row := {|
  Spec.prop_name := Property.name p;
  Spec.has_setter := bool_decide (is_Some (Property.setter p));
  Spec.prop_outputFormatter := option_map kind_of (Property.outputFormatter p);
  Spec.forwards_to := Property.deprecated p
|}.

(** *** The selector contract in the specification's words *)

(** "a string value beginning with the two-character prefix 0x" *)
Definition starts_with_0x (v : value) : Prop :=
  exists rest, v = VString ("0x" +:+ rest).

(** The test that the five selectors share, for the proofs below. *)
Local Abbreviation hash_test v :=
  (utils.isString v &&& (i ← indexOf v "0x"; mret (i =? 0))).

Ltac selectors :=
  unfold blockCall, transactionFromBlockCall, uncleCall,
    getBlockTransactionCountCall, uncleCountCall.

(** Lookup by name: the first descriptor of the sequence with that name. *)
Definition method_named (n : string) (ms : list Method.t) : option Method.t :=
  List.find (fun m => String.eqb (Method.name m) n) ms.

Definition property_named (n : string) (ps : list Property.t) : option Property.t :=
  List.find (fun p => String.eqb (Property.name p) n) ps.

(** *** What a [call] field can resolve to *)

(** The RPC selectors a [call] can stand for: the string itself, or any
    string the function returns on some argument list. *)
Definition may_yield (c : call_field) (s : string) : Prop :=
  match c with
  | CallString t => t = s
  | CallFunction f => exists args, f args = Ok s
  end.

(** [P] holds of whatever the [call] resolves to, on every argument list;
    a function-valued [call] must return. *)
Definition every_selector (P : string -> Prop) (c : call_field) : Prop :=
  match c with
  | CallString t => P t
  | CallFunction f => forall args, exists s, f args = Ok s /\ P s
  end.

(** * Properties *)

(** ** [String.prototype.indexOf] *)

Lemma append_empty (r : string) : "" +:+ r = r.
Proof. reflexivity. Qed.

Lemma append_String (a : ascii) (s r : string) :
  String a s +:+ r = String a (s +:+ r).
Proof. reflexivity. Qed.

Lemma matches_here_prefix (search s : string) :
  matches_here search s = true <-> exists rest, s = search +:+ rest.
Proof.
  revert s. induction search as [|a search IH]; intros s; simpl.
  - split; [intros _; now exists s | reflexivity].
  - setoid_rewrite append_String. destruct s as [|b s].
    + split; [discriminate | intros [rest H]; discriminate].
    + destruct (Ascii.eqb a b) eqn:E.
      * apply Ascii.eqb_eq in E. subst b. rewrite IH.
        split; intros [rest H]; exists rest; congruence.
      * apply Ascii.eqb_neq in E.
        split; [discriminate | intros [rest H]; congruence].
Qed.

Lemma occurrence_at_start (t post s : string) :
  s = "" +:+ t +:+ post -> matches_here t s = true.
Proof. intros ->. apply matches_here_prefix. now exists post. Qed.

(** The search returns the position of the first occurrence, counted from
    [k], or [-1] when there is none. *)
Lemma indexOf_from_spec (s search : string) (k : Z) :
  (exists pre post,
      indexOf_from k s search = k + Z.of_nat (String.length pre)
      /\ s = pre +:+ search +:+ post
      /\ forall pre' post', s = pre' +:+ search +:+ post' ->
           (String.length pre <= String.length pre')%nat)
  \/ (indexOf_from k s search = -1
      /\ forall pre post, s <> pre +:+ search +:+ post).
Proof.
  revert k. induction s as [|c s IH]; intros k; simpl.
  - destruct (matches_here search "") eqn:M.
    + left. apply matches_here_prefix in M as [rest M].
      exists "", rest. simpl. repeat split; [lia | assumption | lia].
    + right. split; [reflexivity |]. intros [|c pre] post H; [| discriminate].
      apply occurrence_at_start in H. congruence.
  - destruct (matches_here search (String c s)) eqn:M.
    + left. apply matches_here_prefix in M as [rest M].
      exists "", rest. simpl. repeat split; [lia | assumption | lia].
    + destruct (IH (k + 1)) as [(pre & post & Hk & Hs & Hmin) | [Hk Hno]].
      * left. exists (String c pre), post. simpl String.length.
        repeat split.
        -- rewrite Hk. lia.
        -- rewrite append_String. now f_equal.
        -- intros [|c' pre'] post' H.
           ++ apply occurrence_at_start in H. congruence.
           ++ rewrite append_String in H. injection H as _ H.
              simpl. apply le_n_S. eauto.
      * right. split; [assumption |]. intros [|c' pre] post H.
        -- apply occurrence_at_start in H. congruence.
        -- rewrite append_String in H. injection H as _ H.
           now apply (Hno pre post).
Qed.

Lemma String_indexOf_range (s search : string) :
  String_indexOf s search = -1 \/ 0 <= String_indexOf s search.
Proof.
  unfold String_indexOf.
  destruct (indexOf_from_spec s search 0) as [(pre & _ & H & _) | [H _]];
    [right; lia | now left].
Qed.

(** [s.indexOf(search) === 0] says that [s] begins with [search]. *)
Lemma String_indexOf_zero (s search : string) :
  String_indexOf s search = 0 <-> exists rest, s = search +:+ rest.
Proof.
  unfold String_indexOf. split.
  - intros H0.
    destruct (indexOf_from_spec s search 0) as [(pre & post & H & Hs & _) | [H _]];
      [| lia].
    destruct pre; [now exists post | simpl in H; lia].
  - intros H. apply matches_here_prefix in H.
    destruct s; simpl; now rewrite H.
Qed.

(** ** The test of the selectors *)

Lemma hash_test_hash (v : value) :
  starts_with_0x v -> hash_test v = Ok true.
Proof. intros [rest ->]. reflexivity. Qed.

Lemma hash_test_string (s : string) :
  hash_test (VString s) = Ok (String_indexOf s "0x" =? 0).
Proof. reflexivity. Qed.

Lemma hash_test_number (v : value) :
  ~ starts_with_0x v -> hash_test v = Ok false.
Proof.
  intros Hv. destruct v; try reflexivity.
  rewrite hash_test_string. do 2 f_equal.
  apply Z.eqb_neq. intros H0. apply Hv.
  apply String_indexOf_zero in H0 as [rest ->]. now exists rest.
Qed.

Lemma hash_test_total (v : value) :
  hash_test v = Ok true \/ hash_test v = Ok false.
Proof.
  destruct v; try (right; reflexivity).
  rewrite hash_test_string. destruct (_ =? 0); auto.
Qed.

(** ** The call selectors *)

(** C1: each of the five call selectors returns its by-hash RPC selector
    when [args[0]] is a string beginning with "0x", and its by-number RPC
    selector for every other [args[0]]. *)
Theorem selectors_by_hash_or_by_number (args : list value) :
  (starts_with_0x args.[0] ->
     blockCall args = Ok "eth_getBlockByHash"
     /\ transactionFromBlockCall args = Ok "eth_getTransactionByBlockHashAndIndex"
     /\ uncleCall args = Ok "eth_getUncleByBlockHashAndIndex"
     /\ getBlockTransactionCountCall args = Ok "eth_getBlockTransactionCountByHash"
     /\ uncleCountCall args = Ok "eth_getUncleCountByBlockHash")
  /\
  (~ starts_with_0x args.[0] ->
     blockCall args = Ok "eth_getBlockByNumber"
     /\ transactionFromBlockCall args = Ok "eth_getTransactionByBlockNumberAndIndex"
     /\ uncleCall args = Ok "eth_getUncleByBlockNumberAndIndex"
     /\ getBlockTransactionCountCall args = Ok "eth_getBlockTransactionCountByNumber"
     /\ uncleCountCall args = Ok "eth_getUncleCountByBlockNumber").
Proof.
  split; intros H; selectors.
  - rewrite (hash_test_hash _ H). repeat split.
  - rewrite (hash_test_number _ H). repeat split.
Qed.

Lemma not_starts_with_0x_string (s : string) :
  matches_here "0x" s = false -> ~ starts_with_0x (VString s).
Proof.
  intros M [rest H]. injection H as H.
  assert (matches_here "0x" s = true) by (apply matches_here_prefix; eauto).
  congruence.
Defined.

Lemma not_starts_with_0x_other (v : value) :
  utils.isString v = false -> ~ starts_with_0x v.
Proof. intros S [rest ->]. discriminate S. Defined.

(** The scenarios of the specification: a hash, a number, a tag, no
    argument at all, and an object. *)
Lemma selectors_by_hash_or_by_number_witness :
  blockCall [VString "0xabc123"] = Ok "eth_getBlockByHash"
  /\ getBlockTransactionCountCall [VString "0xdead"] = Ok "eth_getBlockTransactionCountByHash"
  /\ blockCall [VNumber 1234%float] = Ok "eth_getBlockByNumber"
  /\ uncleCall [VString "latest"] = Ok "eth_getUncleByBlockNumberAndIndex"
  /\ transactionFromBlockCall [] = Ok "eth_getTransactionByBlockNumberAndIndex"
  /\ uncleCountCall [VObject [("hash", VString "0x1")]] = Ok "eth_getUncleCountByBlockNumber".
Proof.
  repeat apply conj.
  - apply (selectors_by_hash_or_by_number [VString "0xabc123"]).
    exists "abc123". reflexivity.
  - apply (selectors_by_hash_or_by_number [VString "0xdead"]).
    exists "dead". reflexivity.
  - apply (selectors_by_hash_or_by_number [VNumber 1234%float]).
    apply not_starts_with_0x_other. reflexivity.
  - apply (selectors_by_hash_or_by_number [VString "latest"]).
    apply not_starts_with_0x_string. reflexivity.
  - apply (selectors_by_hash_or_by_number []).
    apply not_starts_with_0x_other. reflexivity.
  - apply (selectors_by_hash_or_by_number [VObject [("hash", VString "0x1")]]).
    apply not_starts_with_0x_other. reflexivity.
Defined.

(** C5: each of the five call selectors returns, for every argument
    list, one of its two RPC selector strings and never throws; and when
    [args[0]] is absent (an empty list), [undefined], not a string, or a
    string that does not begin with "0x", it returns the by-number
    selector. *)
Theorem selectors_total (args : list value) :
  ((blockCall args = Ok "eth_getBlockByHash"
    \/ blockCall args = Ok "eth_getBlockByNumber")
   /\ (transactionFromBlockCall args = Ok "eth_getTransactionByBlockHashAndIndex"
       \/ transactionFromBlockCall args = Ok "eth_getTransactionByBlockNumberAndIndex")
   /\ (uncleCall args = Ok "eth_getUncleByBlockHashAndIndex"
       \/ uncleCall args = Ok "eth_getUncleByBlockNumberAndIndex")
   /\ (getBlockTransactionCountCall args = Ok "eth_getBlockTransactionCountByHash"
       \/ getBlockTransactionCountCall args = Ok "eth_getBlockTransactionCountByNumber")
   /\ (uncleCountCall args = Ok "eth_getUncleCountByBlockHash"
       \/ uncleCountCall args = Ok "eth_getUncleCountByBlockNumber"))
  /\
  (args = []
   \/ args.[0] = VUndefined
   \/ (forall s, args.[0] <> VString s)
   \/ ~ starts_with_0x args.[0] ->
     blockCall args = Ok "eth_getBlockByNumber"
     /\ transactionFromBlockCall args = Ok "eth_getTransactionByBlockNumberAndIndex"
     /\ uncleCall args = Ok "eth_getUncleByBlockNumberAndIndex"
     /\ getBlockTransactionCountCall args = Ok "eth_getBlockTransactionCountByNumber"
     /\ uncleCountCall args = Ok "eth_getUncleCountByBlockNumber").
Proof.
  split.
  - selectors.
    destruct (hash_test_total args.[0]) as [-> | ->]; simpl; auto 10.
  - intros H.
    assert (N : ~ starts_with_0x args.[0]).
    { destruct H as [-> | [E | [E | N]]]; [ | | | exact N].
      - intros [rest [=]].
      - rewrite E. intros [rest [=]].
      - intros [rest E']. exact (E _ E'). }
    selectors. rewrite (hash_test_number _ N). repeat split.
Qed.

(** No argument, [undefined], [null], a number, an object, an array that
    holds "0x", and strings without the prefix: each takes the by-number
    branch, although [indexOf] itself would throw on the first five. *)
Lemma selectors_total_witness :
  indexOf VUndefined "0x"
    = Throw (TypeError "Cannot read property 'indexOf' of undefined")
  /\ blockCall [] = Ok "eth_getBlockByNumber"
  /\ transactionFromBlockCall [VUndefined; VString "0xabc"]
     = Ok "eth_getTransactionByBlockNumberAndIndex"
  /\ uncleCall [VNull] = Ok "eth_getUncleByBlockNumberAndIndex"
  /\ getBlockTransactionCountCall [VNumber 1234%float]
     = Ok "eth_getBlockTransactionCountByNumber"
  /\ uncleCountCall [VObject [("hash", VString "0xabc")]]
     = Ok "eth_getUncleCountByBlockNumber"
  /\ blockCall [VArray [VString "0x"]] = Ok "eth_getBlockByNumber"
  /\ uncleCall [VString ""] = Ok "eth_getUncleByBlockNumberAndIndex"
  /\ blockCall [VString "0"] = Ok "eth_getBlockByNumber".
Proof.
  repeat apply conj.
  - reflexivity.
  - apply (proj2 (selectors_total [])). left. reflexivity.
  - apply (proj2 (selectors_total [VUndefined; VString "0xabc"])).
    right. left. reflexivity.
  - apply (proj2 (selectors_total [VNull])).
    right. right. left. intros s. discriminate.
  - apply (proj2 (selectors_total [VNumber 1234%float])).
    right. right. left. intros s. discriminate.
  - apply (proj2 (selectors_total [VObject [("hash", VString "0xabc")]])).
    right. right. left. intros s. discriminate.
  - apply (proj2 (selectors_total [VArray [VString "0x"]])).
    right. right. left. intros s. discriminate.
  - apply (proj2 (selectors_total [VString ""])).
    right. right. right. apply not_starts_with_0x_string. reflexivity.
  - apply (proj2 (selectors_total [VString "0"])).
    right. right. right. apply not_starts_with_0x_string. reflexivity.
Defined.

(** C6: each of the five call selectors returns the same result on any
    two argument lists that have the same element at index 0. *)
Theorem selectors_depend_on_first_argument (args1 args2 : list value) :
  args1.[0] = args2.[0] ->
  blockCall args1 = blockCall args2
  /\ transactionFromBlockCall args1 = transactionFromBlockCall args2
  /\ uncleCall args1 = uncleCall args2
  /\ getBlockTransactionCountCall args1 = getBlockTransactionCountCall args2
  /\ uncleCountCall args1 = uncleCountCall args2.
Proof. intros H. selectors. rewrite H. repeat split. Qed.

Lemma selectors_depend_on_first_argument_witness :
  let args1 := [VString "0xabc123"; VBoolean true] in
  let args2 := [VString "0xabc123"; VNumber 7%float; VNull] in
  args1.[0] = args2.[0]
  /\ blockCall args1 = blockCall args2
  /\ transactionFromBlockCall args1 = transactionFromBlockCall args2
  /\ uncleCall args1 = uncleCall args2
  /\ getBlockTransactionCountCall args1 = getBlockTransactionCountCall args2
  /\ uncleCountCall args1 = uncleCountCall args2.
Proof.
  intros args1 args2. split; [reflexivity |].
  apply (selectors_depend_on_first_argument args1 args2). reflexivity.
Defined.

(** C10: the hash test is case-sensitive and anchored at position 0: when
    [args[0]] is a string that begins with "0X", or a string in which
    "0x" first occurs at a later position, each of the five call
    selectors returns its by-number RPC selector. *)
Theorem hash_test_case_sensitive_and_anchored (args : list value) (s : string) :
  args.[0] = VString s ->
  (exists rest, s = "0X" +:+ rest) \/ 0 < String_indexOf s "0x" ->
  blockCall args = Ok "eth_getBlockByNumber"
  /\ transactionFromBlockCall args = Ok "eth_getTransactionByBlockNumberAndIndex"
  /\ uncleCall args = Ok "eth_getUncleByBlockNumberAndIndex"
  /\ getBlockTransactionCountCall args = Ok "eth_getBlockTransactionCountByNumber"
  /\ uncleCountCall args = Ok "eth_getUncleCountByBlockNumber".
Proof.
  intros Hs H.
  assert (N : ~ starts_with_0x args.[0]).
  { rewrite Hs. intros [rest' E]. injection E as E.
    destruct H as [[rest ->] | H].
    - discriminate E.
    - assert (String_indexOf s "0x" = 0) by (apply String_indexOf_zero; eauto).
      lia. }
  selectors. rewrite (hash_test_number _ N). repeat split.
Qed.

Lemma hash_test_case_sensitive_and_anchored_witness :
  blockCall [VString "0XABC"] = Ok "eth_getBlockByNumber"
  /\ uncleCountCall [VString "0XABC"] = Ok "eth_getUncleCountByBlockNumber"
  /\ String_indexOf "a0x1" "0x" = 1
  /\ blockCall [VString "a0x1"] = Ok "eth_getBlockByNumber"
  /\ transactionFromBlockCall [VString "a0x1"] = Ok "eth_getTransactionByBlockNumberAndIndex".
Proof.
  repeat apply conj.
  - apply (hash_test_case_sensitive_and_anchored [VString "0XABC"] "0XABC");
      [reflexivity | left; exists "ABC"; reflexivity].
  - apply (hash_test_case_sensitive_and_anchored [VString "0XABC"] "0XABC");
      [reflexivity | left; exists "ABC"; reflexivity].
  - reflexivity.
  - apply (hash_test_case_sensitive_and_anchored [VString "a0x1"] "a0x1");
      [reflexivity | right; reflexivity].
  - apply (hash_test_case_sensitive_and_anchored [VString "a0x1"] "a0x1");
      [reflexivity | right; reflexivity].
Defined.

(** ** The method table *)

(** C2: the exported method sequence has exactly the 17 rows of the
    specification's table, in that order, each with the declared name,
    call, paramCount and formatters; the five calls that are functions
    are the hash/number selectors of their operations. *)
Theorem methods_table :
  List.map method_shape (exports_methods module_exports) = Spec.method_table
  /\ length (exports_methods module_exports) = 17%nat
  /\ option_map Method.call (method_named "getBlock" methods)
     = Some (CallFunction blockCall)
  /\ option_map Method.call (method_named "getUncle" methods)
     = Some (CallFunction uncleCall)
  /\ option_map Method.call (method_named "getBlockTransactionCount" methods)
     = Some (CallFunction getBlockTransactionCountCall)
  /\ option_map Method.call (method_named "getBlockUncleCount" methods)
     = Some (CallFunction uncleCountCall)
  /\ option_map Method.call (method_named "getTransactionFromBlock" methods)
     = Some (CallFunction transactionFromBlockCall).
Proof. repeat apply conj; reflexivity. Qed.

(** C3: the getTransactionFromBlock descriptor declares paramCount 2, has
    the hash/number selector function as its call and the
    transaction-result output formatter, and its inputFormatter is the
    single hex-conversion function, not a per-argument array. *)
Theorem getTransactionFromBlock_shape :
  exists m,
    method_named "getTransactionFromBlock" (exports_methods module_exports) = Some m
    /\ Method.paramCount m = 2
    /\ Method.call m = CallFunction transactionFromBlockCall
    /\ Method.outputFormatter m = Some formatters_outputTransactionFormatter
    /\ Method.inputFormatter m = Some (Single utils_toHex)
    /\ (forall fs, Method.inputFormatter m <> Some (PerArgument fs))
    /\ method_shape m
       = Spec.row "getTransactionFromBlock" Spec.selector_hash_number 2
           (Some (Spec.single Spec.hex)) (Some Spec.transaction_result).
Proof.
  exists getTransactionFromBlock.
  repeat apply conj; try reflexivity.
  intros fs H. discriminate H.
Qed.

(** C9: every method descriptor of the exported method sequence declares
    a paramCount that is an integer at least 0. *)
Theorem methods_paramCount_nonnegative (m : Method.t) :
  m ∈ exports_methods module_exports -> 0 <= Method.paramCount m.
Proof.
  intros Hm. simpl in Hm.
  repeat (apply elem_of_cons in Hm as [-> | Hm]; [vm_compute; discriminate |]).
  now apply elem_of_nil in Hm.
Qed.

Lemma methods_paramCount_nonnegative_witness :
  getStorageAt ∈ exports_methods module_exports
  /\ 0 <= Method.paramCount getStorageAt.
Proof.
  assert (H : getStorageAt ∈ exports_methods module_exports)
    by (apply list_elem_of_further, list_elem_of_here).
  split; [exact H | exact (methods_paramCount_nonnegative getStorageAt H)].
Defined.

(** ** The property table *)

(** C4: the exported property sequence is, in order, coinbase, mining,
    gasPrice (numeric output formatter), accounts, blockNumber (decimal
    output formatter) and the deprecated aliases listening (to
    net.listening, with a setter), peerCount (to net.peerCount) and number
    (to eth.blockNumber); coinbase reads eth_coinbase, and looking up
    "listening" gives deprecated "net.listening" and setter
    "eth_setListening". *)
Theorem properties_table :
  List.map property_shape (exports_properties module_exports) = Spec.property_table
  /\ option_map Property.getter (property_named "coinbase" properties)
     = Some "eth_coinbase"
  /\ exists p,
       property_named "listening" (exports_properties module_exports) = Some p
       /\ Property.deprecated p = Some "net.listening"
       /\ Property.setter p = Some "eth_setListening".
Proof.
  repeat apply conj; try reflexivity.
  eexists. repeat apply conj; reflexivity.
Qed.

(** C8: a property descriptor of the exported property sequence that has
    a deprecated field has a non-empty replacement path there, different
    from its own name. *)
Theorem deprecated_replacement_path (p : Property.t) (path : string) :
  p ∈ exports_properties module_exports ->
  Property.deprecated p = Some path ->
  path <> "" /\ path <> Property.name p.
Proof.
  intros Hp. simpl in Hp.
  repeat (apply elem_of_cons in Hp as [-> | Hp];
          [simpl; intros [= <-]; split; discriminate |]).
  now apply elem_of_nil in Hp.
Qed.

Lemma deprecated_replacement_path_witness :
  let p := Property.new "number" "eth_number" None None (Some "eth.blockNumber") in
  p ∈ exports_properties module_exports
  /\ Property.deprecated p = Some "eth.blockNumber"
  /\ "eth.blockNumber" <> "" /\ "eth.blockNumber" <> Property.name p.
Proof.
  intros p.
  assert (H : p ∈ exports_properties module_exports)
    by (do 7 apply list_elem_of_further; apply list_elem_of_here).
  split; [exact H |]. split; [reflexivity |].
  exact (deprecated_replacement_path p "eth.blockNumber" H eq_refl).
Defined.

(** ** Names *)

(** C7: no two descriptors of the exported method sequence have the same
    name, and no two descriptors of the exported property sequence have
    the same name. *)
Theorem names_unique :
  NoDup (List.map Method.name (exports_methods module_exports))
  /\ NoDup (List.map Property.name (exports_properties module_exports)).
Proof. split; apply (bool_decide_unpack _); vm_compute; exact I. Qed.

(** ** More on the call selectors *)

Lemma hash_test_true_inv (v : value) :
  hash_test v = Ok true -> starts_with_0x v.
Proof.
  destruct v; try (simpl; discriminate).
  rewrite hash_test_string. intros [= H].
  apply Z.eqb_eq, String_indexOf_zero in H as [rest ->]. now exists rest.
Qed.

Lemma String_indexOf_zero_matches (s search : string) :
  (String_indexOf s search =? 0) = matches_here search s.
Proof.
  destruct (matches_here search s) eqn:M.
  - apply Z.eqb_eq, String_indexOf_zero, matches_here_prefix. exact M.
  - apply Z.eqb_neq. intros H.
    apply String_indexOf_zero, matches_here_prefix in H. congruence.
Qed.

Lemma matches_0x_substring (s : string) :
  matches_here "0x" (String.substring 0 2 s) = matches_here "0x" s.
Proof. destruct s as [|a [|b s]]; reflexivity. Qed.

Lemma hash_test_two_code_units (s : string) :
  hash_test (VString s) = Ok (matches_here "0x" (String.substring 0 2 s)).
Proof.
  rewrite hash_test_string, String_indexOf_zero_matches, matches_0x_substring.
  reflexivity.
Qed.

(** X1: each of the five call selectors returns its by-hash RPC selector
    exactly when [args[0]] is a string beginning with "0x"; the two
    results of a selector are never confused, and the five selectors
    always take the same branch. *)
Theorem selectors_by_hash_iff (args : list value) :
  (blockCall args = Ok "eth_getBlockByHash" <-> starts_with_0x args.[0])
  /\ (transactionFromBlockCall args = Ok "eth_getTransactionByBlockHashAndIndex"
      <-> starts_with_0x args.[0])
  /\ (uncleCall args = Ok "eth_getUncleByBlockHashAndIndex"
      <-> starts_with_0x args.[0])
  /\ (getBlockTransactionCountCall args = Ok "eth_getBlockTransactionCountByHash"
      <-> starts_with_0x args.[0])
  /\ (uncleCountCall args = Ok "eth_getUncleCountByBlockHash"
      <-> starts_with_0x args.[0]).
Proof.
  selectors. destruct (hash_test_total args.[0]) as [E | E]; rewrite E; simpl.
  - apply hash_test_true_inv in E. repeat apply conj; auto.
  - repeat apply conj;
      first [ intros [=]
            | intros S; rewrite (hash_test_hash _ S) in E; discriminate E ].
Qed.

(** X2: on a string [args[0]] the five call selectors read the first two
    code units only: two strings with the same first two code units get
    the same answers, whatever follows. *)
Theorem selectors_read_two_code_units (args1 args2 : list value) (s1 s2 : string) :
  args1.[0] = VString s1 ->
  args2.[0] = VString s2 ->
  String.substring 0 2 s1 = String.substring 0 2 s2 ->
  blockCall args1 = blockCall args2
  /\ transactionFromBlockCall args1 = transactionFromBlockCall args2
  /\ uncleCall args1 = uncleCall args2
  /\ getBlockTransactionCountCall args1 = getBlockTransactionCountCall args2
  /\ uncleCountCall args1 = uncleCountCall args2.
Proof.
  intros H1 H2 Hsub. selectors.
  rewrite H1, H2, !hash_test_two_code_units, Hsub. repeat split.
Qed.

Lemma selectors_read_two_code_units_witness :
  let args1 := [VString "0xabc123"] in
  let args2 := [VString "0x, not a hash"; VNumber 1%float] in
  blockCall args1 = blockCall args2
  /\ transactionFromBlockCall args1 = transactionFromBlockCall args2
  /\ uncleCall args1 = uncleCall args2
  /\ getBlockTransactionCountCall args1 = getBlockTransactionCountCall args2
  /\ uncleCountCall args1 = uncleCountCall args2.
Proof.
  intros args1 args2.
  apply (selectors_read_two_code_units args1 args2 "0xabc123" "0x, not a hash");
    reflexivity.
Defined.

(** ** More on the method table *)

(** What a selector function can return: one of its two strings. *)
Lemma hash_number_cases (h n s : string) (args : list value) :
  (c ← hash_test args.[0]; mret (cond c h n)) = Ok s -> s = h \/ s = n.
Proof.
  destruct (hash_test_total args.[0]) as [-> | ->]; simpl; intros [= <-]; auto.
Qed.

(** The methods with the RPC selectors their [call] can resolve to. *)
Lemma may_yield_inv (m : Method.t) (s : string) :
  m ∈ methods ->
  may_yield (Method.call m) s ->
  (Method.name m, s) ∈
    [ ("getBalance", "eth_getBalance");
      ("getStorageAt", "eth_getStorageAt");
      ("getCode", "eth_getCode");
      ("getBlock", "eth_getBlockByHash");
      ("getBlock", "eth_getBlockByNumber");
      ("getUncle", "eth_getUncleByBlockHashAndIndex");
      ("getUncle", "eth_getUncleByBlockNumberAndIndex");
      ("getCompilers", "eth_getCompilers");
      ("getBlockTransactionCount", "eth_getBlockTransactionCountByHash");
      ("getBlockTransactionCount", "eth_getBlockTransactionCountByNumber");
      ("getBlockUncleCount", "eth_getUncleCountByBlockHash");
      ("getBlockUncleCount", "eth_getUncleCountByBlockNumber");
      ("getTransaction", "eth_getTransactionByHash");
      ("getTransactionFromBlock", "eth_getTransactionByBlockHashAndIndex");
      ("getTransactionFromBlock", "eth_getTransactionByBlockNumberAndIndex");
      ("getTransactionCount", "eth_getTransactionCount");
      ("call", "eth_call");
      ("sendTransaction", "eth_sendTransaction");
      ("compile.solidity", "eth_compileSolidity");
      ("compile.lll", "eth_compileLLL");
      ("compile.serpent", "eth_compileSerpent");
      ("flush", "eth_flush") ].
Proof.
  intros Hm. unfold methods in Hm.
  repeat (apply elem_of_cons in Hm as [-> | Hm];
          [ simpl;
            first [ intros <-
                  | intros [args [-> | ->]%hash_number_cases ] ];
            apply (bool_decide_unpack _); vm_compute; exact I |]).
  now apply elem_of_nil in Hm.
Qed.

(** X3: every RPC selector a method of the table can resolve to, on any
    argument list, is in the eth_ namespace; a function-valued call
    always returns one. *)
Theorem methods_selectors_in_eth_namespace (m : Method.t) :
  m ∈ exports_methods module_exports ->
  every_selector (fun s => exists rest, s = "eth_" +:+ rest) (Method.call m).
Proof.
  intros Hm. simpl in Hm.
  repeat (apply elem_of_cons in Hm as [-> | Hm];
          [ simpl;
            first [ eexists; reflexivity
                  | intros args; selectors;
                    destruct (hash_test_total args.[0]) as [-> | ->];
                    eexists; (split; [reflexivity | eexists; reflexivity]) ] |]).
  now apply elem_of_nil in Hm.
Qed.

Lemma methods_selectors_in_eth_namespace_witness :
  getUncle ∈ exports_methods module_exports
  /\ forall args, exists s,
       uncleCall args = Ok s /\ exists rest, s = "eth_" +:+ rest.
Proof.
  assert (H : getUncle ∈ exports_methods module_exports)
    by (do 4 apply list_elem_of_further; apply list_elem_of_here).
  split; [exact H | exact (methods_selectors_in_eth_namespace getUncle H)].
Defined.

(** X4: no RPC selector is shared: two methods of the table whose calls
    can resolve to the same selector, on whatever argument lists, have
    the same name. *)
Theorem methods_selectors_not_shared (m1 m2 : Method.t) (s : string) :
  m1 ∈ exports_methods module_exports ->
  m2 ∈ exports_methods module_exports ->
  may_yield (Method.call m1) s ->
  may_yield (Method.call m2) s ->
  Method.name m1 = Method.name m2.
Proof.
  intros H1 H2 Y1 Y2.
  pose proof (may_yield_inv m1 s H1 Y1) as P1.
  pose proof (may_yield_inv m2 s H2 Y2) as P2.
  revert P1 P2. generalize (Method.name m1) (Method.name m2). intros n1 n2.
  set (table := _ :: _).
  assert (T : Forall (fun x => Forall (fun y => x.2 = y.2 -> x.1 = y.1) table) table)
    by (apply (bool_decide_unpack _); vm_compute; exact I).
  intros P1 P2. rewrite Forall_forall in T.
  specialize (T _ P1). rewrite Forall_forall in T.
  exact (T _ P2 eq_refl).
Qed.

Lemma methods_selectors_not_shared_witness :
  getBlock ∈ exports_methods module_exports
  /\ may_yield (Method.call getBlock) "eth_getBlockByNumber"
  /\ Method.name getBlock = Method.name getBlock.
Proof.
  assert (H : getBlock ∈ exports_methods module_exports)
    by (do 3 apply list_elem_of_further; apply list_elem_of_here).
  assert (Y1 : may_yield (Method.call getBlock) "eth_getBlockByNumber")
    by (exists [VNumber 1234%float]; reflexivity).
  assert (Y2 : may_yield (Method.call getBlock) "eth_getBlockByNumber")
    by (exists [VString "latest"]; reflexivity).
  split; [exact H |]. split; [exact Y1 |].
  exact (methods_selectors_not_shared getBlock getBlock _ H H Y1 Y2).
Defined.

(** X5: a method whose call is a selector function, or which declares an
    input formatter, takes at least one parameter: there is an [args[0]]
    to inspect and to format. *)
Theorem methods_with_selector_or_formatter_take_a_parameter (m : Method.t) :
  m ∈ exports_methods module_exports ->
  (exists f, Method.call m = CallFunction f) \/ is_Some (Method.inputFormatter m) ->
  1 <= Method.paramCount m.
Proof.
  intros Hm. simpl in Hm.
  repeat (apply elem_of_cons in Hm as [-> | Hm];
          [ first [ intros _; vm_compute; discriminate
                  | intros [[f [=]] | [f [=]]] ] |]).
  now apply elem_of_nil in Hm.
Qed.

Lemma methods_with_selector_or_formatter_take_a_parameter_witness :
  getTransactionFromBlock ∈ exports_methods module_exports
  /\ (exists f, Method.call getTransactionFromBlock = CallFunction f)
  /\ 1 <= Method.paramCount getTransactionFromBlock.
Proof.
  assert (H : getTransactionFromBlock ∈ exports_methods module_exports)
    by (do 9 apply list_elem_of_further; apply list_elem_of_here).
  assert (F : exists f, Method.call getTransactionFromBlock = CallFunction f)
    by (exists transactionFromBlockCall; reflexivity).
  split; [exact H |]. split; [exact F |].
  exact (methods_with_selector_or_formatter_take_a_parameter _ H (or_introl F)).
Defined.

(** ** More on the property table *)

(** X6: the two exported sequences share no name: no method of the table
    is called like a property of the table. *)
Theorem method_and_property_names_disjoint (m : Method.t) (p : Property.t) :
  m ∈ exports_methods module_exports ->
  p ∈ exports_properties module_exports ->
  Method.name m <> Property.name p.
Proof.
  assert (T : Forall (fun m => Forall (fun p => Method.name m <> Property.name p)
                                 properties) methods)
    by (apply (bool_decide_unpack _); vm_compute; exact I).
  intros Hm Hp. rewrite Forall_forall in T.
  specialize (T m Hm). rewrite Forall_forall in T. exact (T p Hp).
Qed.

Lemma method_and_property_names_disjoint_witness :
  call ∈ exports_methods module_exports
  /\ (Property.new "number" "eth_number" None None (Some "eth.blockNumber"))
       ∈ exports_properties module_exports
  /\ Method.name call <> "number".
Proof.
  assert (Hm : call ∈ exports_methods module_exports)
    by (do 11 apply list_elem_of_further; apply list_elem_of_here).
  assert (Hp : (Property.new "number" "eth_number" None None (Some "eth.blockNumber"))
                 ∈ exports_properties module_exports)
    by (do 7 apply list_elem_of_further; apply list_elem_of_here).
  split; [exact Hm |]. split; [exact Hp |].
  exact (method_and_property_names_disjoint _ _ Hm Hp).
Defined.

(** X7: only deprecated properties can be written: a property of the
    table that declares a setter also declares a deprecated replacement
    path. *)
Theorem writable_properties_are_deprecated (p : Property.t) :
  p ∈ exports_properties module_exports ->
  is_Some (Property.setter p) ->
  is_Some (Property.deprecated p).
Proof.
  intros Hp. simpl in Hp.
  repeat (apply elem_of_cons in Hp as [-> | Hp];
          [ simpl; first [ solve [intros [s [=]]] | intros _; eexists; reflexivity ] |]).
  now apply elem_of_nil in Hp.
Qed.

Lemma writable_properties_are_deprecated_witness :
  let p := Property.new "listening" "net_listening" (Some "eth_setListening")
             None (Some "net.listening") in
  p ∈ exports_properties module_exports
  /\ is_Some (Property.setter p)
  /\ is_Some (Property.deprecated p).
Proof.
  intros p.
  assert (Hp : p ∈ exports_properties module_exports)
    by (do 5 apply list_elem_of_further; apply list_elem_of_here).
  assert (Hs : is_Some (Property.setter p)) by (eexists; reflexivity).
  split; [exact Hp |]. split; [exact Hs |].
  exact (writable_properties_are_deprecated p Hp Hs).
Defined.

(** X8: the RPC selectors of the properties are their own: no getter and
    no setter of a property of the table is a selector that the call of
    a method of the table can resolve to. *)
Theorem property_selectors_unused_by_methods
  (p : Property.t) (m : Method.t) (s : string) :
  p ∈ exports_properties module_exports ->
  m ∈ exports_methods module_exports ->
  Property.getter p = s \/ Property.setter p = Some s ->
  ~ may_yield (Method.call m) s.
Proof.
  intros Hp Hm Hs Y.
  pose proof (may_yield_inv m s Hm Y) as P.
  apply (list_elem_of_fmap_2 snd) in P. simpl in P, Hp. revert P.
  repeat (apply elem_of_cons in Hp as [-> | Hp];
          [ destruct Hs as [<- | [=]]; subst;
            apply (bool_decide_unpack _); vm_compute; exact I |]).
  now apply elem_of_nil in Hp.
Qed.

Lemma property_selectors_unused_by_methods_witness :
  let p := Property.new "blockNumber" "eth_blockNumber" None
             (Some utils_toDecimal) None in
  p ∈ exports_properties module_exports
  /\ getBlock ∈ exports_methods module_exports
  /\ ~ may_yield (Method.call getBlock) "eth_blockNumber".
Proof.
  intros p.
  assert (Hp : p ∈ exports_properties module_exports)
    by (do 4 apply list_elem_of_further; apply list_elem_of_here).
  assert (Hm : getBlock ∈ exports_methods module_exports)
    by (do 3 apply list_elem_of_further; apply list_elem_of_here).
  split; [exact Hp |]. split; [exact Hm |].
  exact (property_selectors_unused_by_methods p getBlock "eth_blockNumber"
           Hp Hm (or_introl eq_refl)).
Defined.

(** X9: no two properties of the table read the same RPC getter. *)
Theorem property_getters_distinct (p1 p2 : Property.t) :
  p1 ∈ exports_properties module_exports ->
  p2 ∈ exports_properties module_exports ->
  Property.getter p1 = Property.getter p2 ->
  Property.name p1 = Property.name p2.
Proof.
  assert (T : Forall (fun p1 => Forall (fun p2 =>
                 Property.getter p1 = Property.getter p2 ->
                 Property.name p1 = Property.name p2) properties) properties)
    by (apply (bool_decide_unpack _); vm_compute; exact I).
  intros H1 H2. rewrite Forall_forall in T.
  specialize (T p1 H1). rewrite Forall_forall in T. exact (T p2 H2).
Qed.

Lemma property_getters_distinct_witness :
  let p := Property.new "mining" "eth_mining" None None None in
  p ∈ exports_properties module_exports
  /\ Property.name p = Property.name p.
Proof.
  intros p.
  assert (Hp : p ∈ exports_properties module_exports)
    by (apply list_elem_of_further, list_elem_of_here).
  split; [exact Hp |].
  exact (property_getters_distinct p p Hp Hp eq_refl).
Defined.

(** ** Lookup by name *)

(** X10: looking a descriptor of either table up by its own name finds
    that descriptor: no entry is hidden behind an earlier one. *)
Theorem lookup_by_name_finds_descriptor :
  (forall m, m ∈ exports_methods module_exports ->
     method_named (Method.name m) (exports_methods module_exports) = Some m)
  /\ (forall p, p ∈ exports_properties module_exports ->
        property_named (Property.name p) (exports_properties module_exports) = Some p).
Proof.
  split.
  - intros m Hm. simpl in Hm.
    repeat (apply elem_of_cons in Hm as [-> | Hm]; [reflexivity |]).
    now apply elem_of_nil in Hm.
  - intros p Hp. simpl in Hp.
    repeat (apply elem_of_cons in Hp as [-> | Hp]; [reflexivity |]).
    now apply elem_of_nil in Hp.
Qed.

Lemma lookup_by_name_finds_descriptor_witness :
  method_named "compile.lll" (exports_methods module_exports) = Some compileLLL.
Proof.
  apply (proj1 lookup_by_name_finds_descriptor compileLLL).
  do 14 apply list_elem_of_further. apply list_elem_of_here.
Defined.
